(** * The Categorize codec of numcodecs (numcodecs/categorize.py)

    A shallow embedding of [Categorize.__init__], [Categorize.encode],
    [Categorize.decode] and [Categorize.get_config], and the properties of
    the codec stated over it.

    NumPy arrays are flat lists of element values.  Arrays that the code
    writes through a name shared with the caller (the [out] argument of
    [decode]) live in an explicit store, so that a view and the array it
    views are one location. *)

From Stdlib Require Import ZArith String Ascii List Lia Permutation.
From Stdlib Require Import DecimalString DecimalNat.
From stdpp Require Import base decidable option list numbers strings.

Local Open Scope string_scope.
Local Open Scope list_scope.
Local Open Scope Z_scope.

(** ** NumPy element types *)

(** The fixed-width integer types of NumPy, by their type code:
    [u1] .. [u8] unsigned, [i1] .. [i8] signed. *)
Inductive int_dtype := U1 | U2 | U4 | U8 | I1 | I2 | I4 | I8.

#[global] Instance int_dtype_eq_dec : EqDecision int_dtype.
Proof. solve_decision. Defined.

Definition itemsize (t : int_dtype) : nat :=
  match t with
  | U1 | I1 => 1
  | U2 | I2 => 2
  | U4 | I4 => 4
  | U8 | I8 => 8
  end%nat.

Definition is_signed (t : int_dtype) : bool :=
  match t with
  | U1 | U2 | U4 | U8 => false
  | I1 | I2 | I4 | I8 => true
  end.

Definition bits (t : int_dtype) : Z := 8 * Z.of_nat (itemsize t).

(** Largest value an element of type [t] holds. *)
Definition max_value (t : int_dtype) : Z :=
  if is_signed t then 2 ^ (bits t - 1) - 1 else 2 ^ bits t - 1.

Definition min_value (t : int_dtype) : Z :=
  if is_signed t then - 2 ^ (bits t - 1) else 0.

(** Storing a Python integer [z] into an array of type [t]
    ([enc[mask] = z]): the value is converted as C does, keeping the low
    [bits t] bits; a signed type reads them in two's complement. *)
Definition cast (t : int_dtype) (z : Z) : Z :=
  let m := 2 ^ bits t in
  if is_signed t then (z + m / 2) mod m - m / 2 else z mod m.

(** The element types a codec is built with: [S<n>] (byte strings of at
    most [n] bytes), [U<n>] (text of at most [n] code points) and the
    integer types. *)
Inductive np_dtype :=
  | DBytes (n : nat)
  | DText (n : nat)
  | DInt (t : int_dtype).

#[global] Instance np_dtype_eq_dec : EqDecision np_dtype.
Proof. solve_decision. Defined.

(** [dtype.kind] *)
Definition kind (d : np_dtype) : ascii :=
  match d with
  | DBytes _ => "S"
  | DText _ => "U"
  | DInt t => if is_signed t then "i" else "u"
  end%char.

(** Python values that occur as labels and as array elements: [bytes],
    [str] (a list of code points) and [int].  An array element is the
    value NumPy reads back from the array (a byte string without its
    padding), and [arr == l] compares these values. *)
Inductive pyobj :=
  | PyBytes (b : string)
  | PyStr (s : list N)
  | PyInt (z : Z).

#[global] Instance pyobj_eq_dec : EqDecision pyobj.
Proof. solve_decision. Defined.

(** The value [np.zeros_like(_, dtype=d)] fills an array with. *)
Definition zero (d : np_dtype) : pyobj :=
  match d with
  | DBytes _ => PyBytes ""
  | DText _ => PyStr []
  | DInt _ => PyInt 0
  end.

(** *** Type strings: [dtype.str] and [np.dtype(str)] *)

Definition decimal (n : nat) : string := NilEmpty.string_of_uint (Nat.to_uint n).

Definition of_decimal (s : string) : option nat :=
  Nat.of_uint <$> NilEmpty.uint_of_string s.

Definition int_dtype_str (t : int_dtype) : string :=
  String (if decide (itemsize t = 1%nat) then "|" else "<")%char
    (String (if is_signed t then "i" else "u")%char (decimal (itemsize t))).

(** [dtype.str] on a little-endian host. *)
Definition dtype_str (d : np_dtype) : string :=
  match d with
  | DBytes n => ("|S" ++ decimal n)%string
  | DText n => ("<U" ++ decimal n)%string
  | DInt t => int_dtype_str t
  end.

Definition strip_byteorder (s : string) : string :=
  match s with
  | String c s' =>
      if decide (c = "|" ∨ c = "<" ∨ c = "=")%char then s' else s
  | EmptyString => s
  end.

Definition int_of_size (signed : bool) (n : nat) : option int_dtype :=
  match signed, n with
  | false, 1 => Some U1 | false, 2 => Some U2
  | false, 4 => Some U4 | false, 8 => Some U8
  | true, 1 => Some I1 | true, 2 => Some I2
  | true, 4 => Some I4 | true, 8 => Some I8
  | _, _ => None
  end%nat.

(** [np.dtype(s)] for a type string [s]: an optional byte-order mark, a
    kind character and a decimal size.  Other strings are refused. *)
Definition dtype_of_str (s : string) : option np_dtype :=
  match strip_byteorder s with
  | String k digits =>
      n ← of_decimal digits;
      if decide (k = "S"%char) then Some (DBytes n)
      else if decide (k = "U"%char) then Some (DText n)
      else if decide (k = "u"%char) then DInt <$> int_of_size false n
      else if decide (k = "i"%char) then DInt <$> int_of_size true n
      else None
  | EmptyString => None
  end.

(** What [np.dtype] accepts: a dtype object or a type string. *)
Inductive dtype_like :=
  | OfDtype (d : np_dtype)
  | OfStr (s : string).

(** [np.dtype(x)] *)
Definition np_dtype_of (x : dtype_like) : option np_dtype :=
  match x with
  | OfDtype d => Some d
  | OfStr s => dtype_of_str s
  end.

(** The encoded element type is an integer type. *)
Definition as_int (d : np_dtype) : option int_dtype :=
  match d with
  | DInt t => Some t
  | _ => None
  end.

(** ** Text encodings (numcodecs.compat) *)

(** The character encoding [ensure_bytes] and [ensure_text] convert with:
    [str_encode] is [s.encode(encoding)], [bytes_decode] is
    [str(b, encoding)]; both raise on input outside the encoding. *)
Class TextEncoding := {
  str_encode : list N → option string;
  bytes_decode : string → option (list N)
}.

(** A decoded byte string encodes back to itself (so it is for ASCII and
    for UTF-8, whose decoders accept one byte sequence per text). *)
Definition encoding_sound (E : TextEncoding) : Prop :=
  ∀ b s, bytes_decode b = Some s → str_encode s = Some b.

(** The ASCII encoding: bytes and code points below 128 correspond. *)
Fixpoint ascii_encode (s : list N) : option string :=
  match s with
  | [] => Some EmptyString
  | c :: s' =>
      if decide (c < 128)%N
      then String (ascii_of_N c) <$> ascii_encode s'
      else None
  end.

Fixpoint ascii_decode (b : string) : option (list N) :=
  match b with
  | EmptyString => Some []
  | String c b' =>
      if decide (N_of_ascii c < 128)%N
      then cons (N_of_ascii c) <$> ascii_decode b'
      else None
  end.

Definition ascii_encoding : TextEncoding :=
  {| str_encode := ascii_encode; bytes_decode := ascii_decode |}.

(** Modelled from the spec: [ensure_bytes] of numcodecs.compat, which
    coerces a label to bytes: bytes are kept, text is encoded, and a
    value that is neither has no [encode] method. *)
Definition ensure_bytes `{TextEncoding} (l : pyobj) : option pyobj :=
  match l with
  | PyBytes _ => Some l
  | PyStr s => PyBytes <$> str_encode s
  | PyInt _ => None
  end.

(** Modelled from the spec: [ensure_text] of numcodecs.compat, which
    coerces a label to text: text is kept, bytes are decoded, and a
    value that is neither cannot be decoded. *)
Definition ensure_text `{TextEncoding} (l : pyobj) : option pyobj :=
  match l with
  | PyStr _ => Some l
  | PyBytes b => PyStr <$> bytes_decode b
  | PyInt _ => None
  end.

(** ** The codec *)

(** The attributes of a [Categorize] instance. *)
Record Categorize := {
  dtype : np_dtype;
  labels : list pyobj;
  astype : int_dtype
}.

Definition codec_id : string := "categorize".

(** [Categorize.__init__(self, labels, dtype, astype='u1')].  A raised
    exception is [None]. *)
Definition __init__ `{TextEncoding} (labels : list pyobj) (dtype astype : dtype_like)
  : option Categorize :=
  self_dtype ← np_dtype_of dtype;
  self_labels ←
    (if decide (kind self_dtype = "S"%char) then mapM ensure_bytes labels
     else if decide (kind self_dtype = "U"%char) then mapM ensure_text labels
     else Some labels);
  self_astype ← np_dtype_of astype ≫= as_int;
  Some {| dtype := self_dtype; labels := self_labels; astype := self_astype |}.

(** The default of the [astype] parameter. *)
Definition default_astype : dtype_like := OfStr "u1".

(** *** Array primitives *)

(** Python's [enumerate], counting from [k]. *)
Fixpoint enumerate_from {A} (k : nat) (l : list A) : list (nat * A) :=
  match l with
  | [] => []
  | x :: l' => (k, x) :: enumerate_from (S k) l'
  end.

Definition enumerate {A} (l : list A) : list (nat * A) := enumerate_from 0 l.

(** [np.zeros_like(arr, dtype=t)] for an integer type. *)
Definition zeros_like_int {A} (arr : list A) : list Z :=
  replicate (length arr) 0.

(** [np.zeros_like(arr, dtype=d)] *)
Definition zeros_like {A} (arr : list A) (d : np_dtype) : list pyobj :=
  replicate (length arr) (zero d).

(** [arr == v], element by element. *)
Definition eq_mask `{EqDecision A} (arr : list A) (v : A) : list bool :=
  map (λ x, bool_decide (x = v)) arr.

(** [a[mask] = v] for a boolean [mask] as long as [a]. *)
Definition mask_assign {A} (mask : list bool) (v : A) (a : list A) : list A :=
  zip_with (λ (m : bool) x, if m then v else x) mask a.

(** Modelled from the spec: [ndarray_from_buffer] of numcodecs.compat,
    which views a buffer as a flat typed array without copying.  Buffers
    are lists of elements already, so the view is the buffer. *)
Definition ndarray_from_buffer {A} (buf : list A) : list A := buf.

(** *** encode *)

(** One iteration of the loop of [encode]: [enc[arr == l] = i + 1], the
    integer [i + 1] converted to the type of [enc]. *)
Definition encode_step (t : int_dtype) (arr : list pyobj)
    (enc : list Z) (il : nat * pyobj) : list Z :=
  mask_assign (eq_mask arr il.2) (cast t (Z.of_nat il.1 + 1)) enc.

(** [Categorize.encode(self, buf)] *)
Definition encode (self : Categorize) (buf : list pyobj) : list Z :=
  let arr := ndarray_from_buffer buf in
  let enc := zeros_like_int arr in
  fold_left (encode_step (astype self) arr) (enumerate (labels self)) enc.

(** *** The store *)

(** Arrays that outlive a call are held in a store; a location is an
    index into it.  A view of an array is the array's location. *)
Abbreviation loc := nat (only parsing).
Abbreviation store := (list (list pyobj)) (only parsing).

(** Computations that read and write the store and may raise. *)
Definition M (A : Type) : Type := store → option (A * store).

Definition ret {A} (a : A) : M A := λ h, Some (a, h).

Definition bind {A B} (m : M A) (k : A → M B) : M B :=
  λ h, match m h with
       | Some (a, h') => k a h'
       | None => None
       end.

Definition raise {A} : M A := λ _, None.

Notation "x ←' m ;; k" := (bind m (λ x, k))
  (at level 100, m at next level, right associativity).
Notation "m ;;' k" := (bind m (λ _, k))
  (at level 100, right associativity).

(** A new array holding [v]. *)
Definition alloc (v : list pyobj) : M loc :=
  λ h, Some (length h, h ++ [v]).

Definition load (l : loc) : M (list pyobj) :=
  λ h, match h !! l with
       | Some v => Some (v, h)
       | None => None
       end.

Definition write (l : loc) (v : list pyobj) : M unit :=
  λ h, if decide (l < length h)%nat then Some (tt, <[l := v]> h) else None.

(** [for x in xs: body(x)] *)
Fixpoint for_each {A} (xs : list A) (body : A → M unit) : M unit :=
  match xs with
  | [] => ret tt
  | x :: xs' => body x ;;' for_each xs' body
  end.

(** [dec[mask] = v] on the array at [dec]; NumPy raises [IndexError]
    when the mask and the array differ in length. *)
Definition mask_store (dec : loc) (mask : list bool) (v : pyobj) : M unit :=
  a ←' load dec ;;
  if decide (length mask = length a)
  then write dec (mask_assign mask v a)
  else raise.

(** The [out] argument of [decode]: [None], an [np.ndarray], or another
    writable buffer. *)
Inductive out_arg :=
  | OutNone
  | OutArray (l : loc)
  | OutBuffer (l : loc).

(** Modelled from the spec: [buffer_copy] of numcodecs.compat.  Without
    an output buffer the working array is the result; with one, the
    result is copied into the buffer, which has to have its size, and the
    buffer is returned. *)
Definition buffer_copy (dec : loc) (out : out_arg) : M loc :=
  match out with
  | OutNone => ret dec
  | OutArray l | OutBuffer l =>
      v ←' load dec ;;
      o ←' load l ;;
      if decide (length v = length o)
      then write l v ;;' ret l
      else raise
  end.

(** *** decode *)

(** [Categorize.decode(self, buf, out=None)] *)
Definition decode (self : Categorize) (buf : list Z) (out : out_arg) : M loc :=
  let enc := ndarray_from_buffer buf in
  dc ←' match out with
        | OutArray l =>
            (* dec = out.reshape(-1, order='A'): a view of [out] *)
            ret (l, false)
        | _ =>
            dec ←' alloc (zeros_like enc (dtype self)) ;;
            ret (dec, true)
        end ;;
  let dec : loc := dc.1 in
  let copy_needed : bool := dc.2 in
  for_each (enumerate (labels self))
    (λ il, mask_store dec (eq_mask enc (Z.of_nat il.1 + 1)) il.2) ;;'
  if copy_needed then buffer_copy dec out else ret dec.

(** *** get_config *)

(** The dictionary [get_config] returns. *)
Record config := {
  cfg_id : string;
  cfg_labels : list pyobj;
  cfg_dtype : string;
  cfg_astype : string
}.

(** [Categorize.get_config(self)] *)
Definition get_config `{TextEncoding} (self : Categorize) : option config :=
  labels ←
    (if decide (kind (dtype self) = "S"%char)
     then mapM ensure_text (labels self)
     else Some (labels self));
  Some {| cfg_id := codec_id;
          cfg_labels := labels;
          cfg_dtype := dtype_str (dtype self);
          cfg_astype := int_dtype_str (astype self) |}.

(** A codec built from the entries of a configuration, as
    [Categorize(labels=.., dtype=.., astype=..)]. *)
Definition from_config `{TextEncoding} (cfg : config) : option Categorize :=
  __init__ (cfg_labels cfg) (OfStr (cfg_dtype cfg)) (OfStr (cfg_astype cfg)).

(** *** __repr__ *)

(** Python's [repr] of a label. *)
Class PyRepr := { repr : pyobj → string }.

(** [repr] of a list: the elements' [repr], separated by a comma and a
    space, in square brackets. *)
Definition list_repr `{PyRepr} (l : list pyobj) : string :=
  "[" +:+ String.concat ", " (repr <$> l) +:+ "]".

(** [repr] of a type string, which has neither a quote nor a character
    to escape. *)
Definition str_repr (s : string) : string := "'" +:+ s +:+ "'".

(** [s[:-1]] *)
Fixpoint drop_last (s : string) : string :=
  match s with
  | EmptyString => EmptyString
  | String c EmptyString => EmptyString
  | String c s' => String c (drop_last s')
  end.

(** [Categorize.__repr__(self)], for an instance of [Categorize] itself
    ([type(self).__name__] is [Categorize]). *)
Definition __repr__ `{PyRepr} (self : Categorize) : string :=
  let labels' := list_repr (take 3 (labels self)) in
  let labels' :=
    if decide (3 < length (labels self))%nat
    then drop_last labels' +:+ ", ...]"
    else labels' in
  "Categorize" +:+ "(dtype=" +:+ str_repr (dtype_str (dtype self))
  +:+ ", astype=" +:+ str_repr (int_dtype_str (astype self))
  +:+ ", labels=" +:+ labels' +:+ ")".

(** [repr] of labels made of printable ASCII characters other than the
    quote and the backslash. *)
Definition plain_repr : PyRepr :=
  {| repr l :=
       match l with
       | PyBytes b => "b'" +:+ b +:+ "'"
       | PyStr s => "'" +:+ string_of_list_ascii (ascii_of_N <$> s) +:+ "'"
       | PyInt z => NilEmpty.string_of_int (Z.to_int z)
       end |}.

(** [isinstance(l, bytes)] and [isinstance(l, str)] *)
Definition is_bytes (l : pyobj) : bool :=
  match l with PyBytes _ => true | _ => false end.

Definition is_text (l : pyobj) : bool :=
  match l with PyStr _ => true | _ => false end.

(** ** Reference functions

    What the loops of [encode] and [decode] compute at one position, in
    closed form; the properties are stated with them and proved of the
    loops above. *)

(** The index of the last occurrence of [x] in [l]. *)
Fixpoint last_index `{EqDecision A} (l : list A) (x : A) : option nat :=
  match l with
  | [] => None
  | y :: l' =>
      match last_index l' x with
      | Some i => Some (S i)
      | None => if decide (x = y) then Some 0%nat else None
      end
  end.

(** The code [encode] leaves at a position holding [x]. *)
Definition code_of (t : int_dtype) (ls : list pyobj) (x : pyobj) : Z :=
  match last_index ls x with
  | Some i => cast t (Z.of_nat i + 1)
  | None => 0
  end.

(** The label that code [code] stands for: [ls[code - 1]]. *)
Definition label_of (ls : list pyobj) (code : Z) : option pyobj :=
  if decide (1 ≤ code) then ls !! Z.to_nat (code - 1) else None.

(** The value [decode] leaves at a position holding [code] that held
    [old] before. *)
Definition decoded (ls : list pyobj) (code : Z) (old : pyobj) : pyobj :=
  default old (label_of ls code).

(** ** Example codecs *)

(** 256 distinct two-letter labels, [AA] .. [PP]. *)
Definition two_letter (i : nat) : pyobj :=
  PyBytes (String (ascii_of_nat (65 + i / 16))
            (String (ascii_of_nat (65 + i mod 16)) EmptyString)).

Definition labels_256 : list pyobj := map two_letter (seq 0 256).

(** One-byte codes for 256 labels: the last label needs code 256. *)
Definition narrow_codec : Categorize :=
  {| dtype := DBytes 2; labels := labels_256; astype := U1 |}.



Definition one_label_codec : Categorize :=
  {| dtype := DBytes 2; labels := [PyBytes "a"]; astype := U1 |}.

(** The codec of the class's docstring. *)
Definition sex_codec : Categorize :=
  {| dtype := DBytes 10;
     labels := [PyBytes "female"; PyBytes "male"];
     astype := U1 |}.

(** * Properties *)

(** ** Integer conversion *)

Ltac eval_pow :=
  repeat match goal with
    | |- context [2 ^ ?e] =>
        let v := eval vm_compute in (2 ^ e) in change (2 ^ e) with v
    | H : context [2 ^ ?e] |- _ =>
        let v := eval vm_compute in (2 ^ e) in change (2 ^ e) with v in H
    end.

Ltac int_cases t :=
  destruct t; cbv [cast max_value min_value bits itemsize is_signed] in *;
  eval_pow.

Lemma bits_pos t : 0 < bits t.
Proof. destruct t; reflexivity. Qed.

Lemma cast_fits t z : 0 ≤ z ≤ max_value t → cast t z = z.
Proof. intros H. int_cases t; Z.div_mod_to_equations; lia. Qed.




(** ** Lists *)

Lemma zip_with_nested {A B} (f g : A → B → B) (xs : list A) (ys : list B) :
  zip_with f xs (zip_with g xs ys) = zip_with (λ x y, f x (g x y)) xs ys.
Proof.
  revert ys; induction xs as [|x xs IH]; intros [|y ys]; simpl; try done.
  by rewrite IH.
Qed.

Lemma zip_with_keep {A B} (xs : list A) (ys : list B) :
  length ys = length xs → zip_with (λ _ y, y) xs ys = ys.
Proof.
  revert ys; induction xs as [|x xs IH]; intros [|y ys]; simpl; try done.
  intros [= H]. by rewrite IH.
Qed.

Lemma zip_with_replicate_r {A B C} (f : A → B → C) (xs : list A) (b : B) :
  zip_with f xs (replicate (length xs) b) = map (λ x, f x b) xs.
Proof. induction xs as [|x xs IH]; simpl; [done | by rewrite IH]. Qed.

Lemma mask_assign_eq_mask {A B} `{EqDecision A} (arr : list A) (l : A)
    (v : B) (a : list B) :
  mask_assign (eq_mask arr l) v a
  = zip_with (λ x e, if bool_decide (x = l) then v else e) arr a.
Proof.
  unfold mask_assign, eq_mask.
  revert a; induction arr as [|x arr IH]; intros [|e a]; simpl; try done.
  by rewrite IH.
Qed.

Lemma length_eq_mask `{EqDecision A} (arr : list A) (v : A) :
  length (eq_mask arr v) = length arr.
Proof. apply length_map. Qed.

Lemma length_mask_assign {A B} `{EqDecision A} (arr : list A) (l : A)
    (v : B) (a : list B) :
  length a = length arr → length (mask_assign (eq_mask arr l) v a) = length a.
Proof.
  intros H. unfold mask_assign, eq_mask.
  rewrite length_zip_with, length_map. lia.
Qed.

(** ** The loop of encode, element by element *)

Definition encode_elem_step (t : int_dtype) (x : pyobj) (acc : Z)
    (il : nat * pyobj) : Z :=
  if bool_decide (x = il.2) then cast t (Z.of_nat il.1 + 1) else acc.

Lemma encode_loop t arr es enc :
  length enc = length arr →
  fold_left (encode_step t arr) es enc
  = zip_with (λ x e, fold_left (encode_elem_step t x) es e) arr enc.
Proof.
  revert enc; induction es as [|[i l] es IH]; intros enc Hlen; simpl.
  - by rewrite zip_with_keep.
  - rewrite IH.
    + unfold encode_step. rewrite mask_assign_eq_mask. simpl.
      by rewrite zip_with_nested.
    + unfold encode_step. simpl. rewrite length_mask_assign; done.
Qed.

Lemma encode_elem_loop t x ls k acc :
  fold_left (encode_elem_step t x) (enumerate_from k ls) acc
  = match last_index ls x with
    | Some i => cast t (Z.of_nat (k + i) + 1)
    | None => acc
    end.
Proof.
  revert k acc; induction ls as [|y ls IH]; intros k acc; simpl; [done|].
  rewrite IH. unfold encode_elem_step at 1. simpl.
  destruct (last_index ls x) as [i|].
  - do 2 f_equal. lia.
  - case_bool_decide; case_decide; try done.
    do 2 f_equal. lia.
Qed.

Lemma encode_spec (self : Categorize) (buf : list pyobj) :
  encode self buf = map (code_of (astype self) (labels self)) buf.
Proof.
  unfold encode, ndarray_from_buffer, zeros_like_int, enumerate.
  rewrite encode_loop by apply length_replicate.
  rewrite zip_with_replicate_r. apply map_ext. intros x.
  rewrite encode_elem_loop. unfold code_of. by destruct (last_index _ _).
Qed.

(** ** The loop of decode, element by element *)

Definition decode_elem_step (code : Z) (acc : pyobj) (il : nat * pyobj)
  : pyobj :=
  if bool_decide (code = Z.of_nat il.1 + 1) then il.2 else acc.

Lemma decode_elem_loop code ls k old :
  fold_left (decode_elem_step code) (enumerate_from k ls) old
  = decoded ls (code - Z.of_nat k) old.
Proof.
  revert k old; induction ls as [|y ls IH]; intros k old; simpl.
  - unfold decoded, label_of. case_decide; [|done].
    by rewrite lookup_nil.
  - rewrite IH. unfold decode_elem_step at 1. simpl.
    unfold decoded, label_of.
    case_bool_decide as Hc.
    + rewrite decide_False by lia. rewrite decide_True by lia.
      replace (Z.to_nat (code - Z.of_nat k - 1)) with 0%nat by lia. done.
    + destruct (decide (1 ≤ code - Z.of_nat (S k))).
      * rewrite decide_True by lia.
        replace (Z.to_nat (code - Z.of_nat k - 1))
          with (S (Z.to_nat (code - Z.of_nat (S k) - 1))) by lia.
        done.
      * destruct (decide (1 ≤ code - Z.of_nat k)); [lia | done].
Qed.

Lemma decode_loop (enc : list Z) (dec : loc) ls k (a : list pyobj) (h : store) :
  h !! dec = Some a →
  length a = length enc →
  for_each (enumerate_from k ls)
    (λ il, mask_store dec (eq_mask enc (Z.of_nat il.1 + 1)) il.2) h
  = Some (tt, <[dec := zip_with (λ code old,
                  fold_left (decode_elem_step code) (enumerate_from k ls) old)
                  enc a]> h).
Proof.
  revert k a h; induction ls as [|y ls IH]; intros k a h Hdec Hlen; simpl.
  - unfold ret. rewrite (zip_with_keep enc a) by done.
    by rewrite list_insert_id.
  - unfold bind at 1, mask_store at 1, bind at 1, load. rewrite Hdec. simpl.
    rewrite length_eq_mask, decide_True by done.
    unfold write. rewrite decide_True by (by eapply lookup_lt_Some).
    rewrite (IH _ (mask_assign (eq_mask enc (Z.of_nat k + 1)) y a)).
    + rewrite list_insert_insert_eq. do 3 f_equal.
      rewrite mask_assign_eq_mask, zip_with_nested. done.
    + apply list_lookup_insert_eq. by eapply lookup_lt_Some.
    + rewrite length_mask_assign; done.
Qed.

Lemma decode_loop_spec (enc : list Z) (dec : loc) ls (a : list pyobj) (h : store) :
  h !! dec = Some a →
  length a = length enc →
  for_each (enumerate ls)
    (λ il, mask_store dec (eq_mask enc (Z.of_nat il.1 + 1)) il.2) h
  = Some (tt, <[dec := zip_with (decoded ls) enc a]> h).
Proof.
  intros Hdec Hlen. unfold enumerate. rewrite (decode_loop _ _ _ _ a) by done.
  do 3 f_equal. apply zip_with_ext; [|done..]. intros code old.
  rewrite decode_elem_loop. f_equal. lia.
Qed.

(** ** decode on each kind of output argument *)

Lemma decode_no_out (self : Categorize) (buf : list Z) (h : store) :
  decode self buf OutNone h
  = Some (length h,
          h ++ [map (λ code, decoded (labels self) code (zero (dtype self))) buf]).
Proof.
  unfold decode, ndarray_from_buffer. unfold bind at 1, bind at 1, alloc, ret.
  simpl. unfold bind at 1.
  rewrite (decode_loop_spec _ _ _ (zeros_like buf (dtype self))).
  - simpl. f_equal. f_equal.
    rewrite <- (Nat.add_0_r (length h)), insert_app_r. simpl.
    unfold zeros_like. by rewrite zip_with_replicate_r.
  - by rewrite lookup_app_r, Nat.sub_diag.
  - apply length_replicate.
Qed.

Lemma decode_out_array (self : Categorize) (buf : list Z) (l : loc)
    (a : list pyobj) (h : store) :
  h !! l = Some a →
  length a = length buf →
  decode self buf (OutArray l) h
  = Some (l, <[l := zip_with (decoded (labels self)) buf a]> h).
Proof.
  intros Hl Hlen. unfold decode, ndarray_from_buffer.
  unfold bind at 1, ret. simpl. unfold bind at 1.
  by rewrite (decode_loop_spec _ _ _ a).
Qed.

Lemma decode_out_buffer (self : Categorize) (buf : list Z) (l : loc)
    (o : list pyobj) (h : store) :
  h !! l = Some o →
  length o = length buf →
  let dec := map (λ code, decoded (labels self) code (zero (dtype self))) buf in
  decode self buf (OutBuffer l) h = Some (l, <[l := dec]> (h ++ [dec])).
Proof.
  intros Hl Hlen dec. unfold decode, ndarray_from_buffer.
  unfold bind at 1, bind at 1, alloc, ret. simpl. unfold bind at 1.
  rewrite (decode_loop_spec _ _ _ (zeros_like buf (dtype self))).
  - simpl. rewrite <- (Nat.add_0_r (length h)), insert_app_r. simpl.
    unfold zeros_like. rewrite zip_with_replicate_r. fold dec.
    unfold bind, load.
    rewrite lookup_app_r, Nat.add_0_r, Nat.sub_diag by lia. simpl.
    rewrite lookup_app_l by (by eapply lookup_lt_Some). rewrite Hl.
    assert (length dec = length o) as Hd
      by (unfold dec; rewrite length_map; lia).
    rewrite decide_True by done.
    unfold write. rewrite decide_True; [done|].
    rewrite length_app. apply lookup_lt_Some in Hl. lia.
  - by rewrite lookup_app_r, Nat.sub_diag.
  - apply length_replicate.
Qed.

(** ** The last occurrence of a label *)

Lemma last_index_lookup `{EqDecision A} (l : list A) (x : A) (i : nat) :
  last_index l x = Some i → l !! i = Some x.
Proof.
  revert i; induction l as [|y l IH]; intros i; simpl; [done|].
  destruct (last_index l x) as [j|].
  - intros [= <-]. simpl. by apply IH.
  - case_decide; [|done]. intros [= <-]. simpl. congruence.
Qed.

Lemma last_index_last `{EqDecision A} (l : list A) (x : A) (i j : nat) :
  last_index l x = Some i → (i < j)%nat → l !! j ≠ Some x.
Proof.
  revert i j; induction l as [|y l IH]; intros i j; simpl; [done|].
  destruct (last_index l x) as [k|] eqn:E.
  - intros [= <-] Hlt. destruct j as [|j]; [lia|]. simpl.
    apply (IH k); [done | lia].
  - case_decide; [|done]. intros [= <-] Hlt.
    destruct j as [|j]; [lia|]. simpl. intros Hj.
    clear IH. revert j Hj Hlt. induction l as [|z l IHl]; intros j Hj Hlt;
      [by rewrite lookup_nil in Hj|].
    simpl in E. destruct (last_index l x); [done|].
    case_decide; [done|].
    destruct j as [|j]; simpl in Hj; [congruence|].
    apply (IHl eq_refl j Hj). lia.
Qed.


Lemma last_index_lt `{EqDecision A} (l : list A) (x : A) (i : nat) :
  last_index l x = Some i → (i < length l)%nat.
Proof. intros H. eapply lookup_lt_Some, last_index_lookup, H. Qed.


(** ** Codes and labels *)


Lemma label_of_zero (ls : list pyobj) : label_of ls 0 = None.
Proof. reflexivity. Qed.

Lemma label_of_large (ls : list pyobj) (code : Z) :
  Z.of_nat (length ls) < code → label_of ls code = None.
Proof.
  intros H. unfold label_of. case_decide; [|done].
  apply lookup_ge_None. lia.
Qed.





(** * The claims *)

(** ** Round trip *)




(** ** Decoding into a supplied array *)

(** C2: decoding code [0] into the array [[zz]] returns that array still
    holding [zz], without allocating; decoding the same code without an
    output buffer returns a new array holding the empty byte string. *)
Theorem decode_out_array_differs :
  decode one_label_codec [0] (OutArray 0%nat) [[PyBytes "zz"]]
  = Some (0%nat, [[PyBytes "zz"]]) ∧
  decode one_label_codec [0] OutNone [[PyBytes "zz"]]
  = Some (1%nat, [[PyBytes "zz"]; [PyBytes ""]]).
Proof. split; reflexivity. Qed.

(** C3: decoding the codes [0] and [5] (the codec has one label) into
    the array [[zz; yy]] leaves both positions as they were, not at the
    zero value of the decoded type. *)
Theorem decode_out_array_keeps_stale :
  decode one_label_codec [0; 5] (OutArray 0%nat)
    [[PyBytes "zz"; PyBytes "yy"]]
  = Some (0%nat, [[PyBytes "zz"; PyBytes "yy"]]) ∧
  PyBytes "zz" ≠ zero (dtype one_label_codec) ∧
  PyBytes "yy" ≠ zero (dtype one_label_codec).
Proof. split; [reflexivity|]. split; discriminate. Qed.

(** What does hold of the three kinds of output argument: a position
    whose code stands for no label keeps the zero value without an
    output buffer and with a buffer that is not an array, and keeps the
    array's old element when decoding into an array. *)
Lemma decoded_unassigned (ls : list pyobj) (code : Z) (old : pyobj) :
  code = 0 ∨ Z.of_nat (length ls) < code → decoded ls code old = old.
Proof.
  unfold decoded. intros [-> | H]; [done|]. by rewrite label_of_large.
Qed.

Lemma decode_out_buffer_same (self : Categorize) (buf : list Z) (l : loc)
    (o : list pyobj) (h : store) :
  h !! l = Some o →
  length o = length buf →
  ∃ l0 h0 h' v,
    decode self buf OutNone h = Some (l0, h0) ∧ h0 !! l0 = Some v ∧
    decode self buf (OutBuffer l) h = Some (l, h') ∧ h' !! l = Some v.
Proof.
  intros Hl Hlen. rewrite decode_no_out, (decode_out_buffer _ _ _ o) by done.
  do 4 eexists. split; [done|]. split.
  - by rewrite lookup_app_r, Nat.sub_diag.
  - split; [done|]. apply list_lookup_insert_eq.
    rewrite length_app. apply lookup_lt_Some in Hl. lia.
Qed.

Lemma decode_out_array_no_alloc (self : Categorize) (buf : list Z) (l : loc)
    (a : list pyobj) (h : store) :
  h !! l = Some a →
  length a = length buf →
  ∃ h', decode self buf (OutArray l) h = Some (l, h') ∧ length h' = length h.
Proof.
  intros Hl Hlen. rewrite (decode_out_array _ _ _ a) by done.
  eexists. split; [done|]. apply length_insert.
Qed.

(** ** Sentinel *)



(** ** Configuration *)

Lemma of_decimal_decimal (n : nat) : of_decimal (decimal n) = Some n.
Proof.
  unfold of_decimal, decimal. rewrite NilEmpty.usu. simpl.
  by rewrite Unsigned.of_to.
Qed.

Lemma dtype_of_int_dtype_str (t : int_dtype) :
  dtype_of_str (int_dtype_str t) = Some (DInt t).
Proof. by destruct t. Qed.

Lemma dtype_of_dtype_str (d : np_dtype) : dtype_of_str (dtype_str d) = Some d.
Proof.
  destruct d as [n|n|t]; [| |apply dtype_of_int_dtype_str].
  - change (dtype_str (DBytes n)) with (String "|" (String "S" (decimal n))).
    unfold dtype_of_str, strip_byteorder.
    rewrite decide_True by auto. by rewrite of_decimal_decimal.
  - change (dtype_str (DText n)) with (String "<" (String "U" (decimal n))).
    unfold dtype_of_str, strip_byteorder.
    rewrite decide_True by auto. by rewrite of_decimal_decimal.
Qed.

Lemma mapM_back {A} (f g : A → option A) (l k m : list A) :
  (∀ x y z, f x = Some y → g y = Some z → f z = Some y) →
  mapM f l = Some k → mapM g k = Some m → mapM f m = Some k.
Proof.
  intros Hfg. rewrite !mapM_Some. intros H1. revert m.
  induction H1 as [|x y l k Hxy _ IH]; intros m H2;
    inversion H2; subst; constructor; eauto.
Qed.

Lemma mapM_again {A} (f : A → option A) (l k : list A) :
  (∀ x y, f x = Some y → f y = Some y) →
  mapM f l = Some k → mapM f k = Some k.
Proof.
  intros Hf. rewrite !mapM_Some.
  induction 1; constructor; eauto.
Qed.

Lemma ensure_bytes_text_bytes `{E : TextEncoding} (x y z : pyobj) :
  encoding_sound E →
  ensure_bytes x = Some y → ensure_text y = Some z → ensure_bytes z = Some y.
Proof.
  intros HE Hx Hy.
  assert (∃ b, y = PyBytes b) as [b ->].
  { destruct x as [b|s|n]; simpl in Hx; [| |done].
    - injection Hx as <-. by exists b.
    - destruct (str_encode s) as [b|]; [|done].
      injection Hx as <-. by exists b. }
  simpl in Hy. destruct (bytes_decode b) as [s|] eqn:Hs; [|done].
  injection Hy as <-. simpl. by rewrite (HE b s Hs).
Qed.

Lemma ensure_text_again `{E : TextEncoding} (x y : pyobj) :
  ensure_text x = Some y → ensure_text y = Some y.
Proof.
  destruct x as [b|s|n]; simpl; [| |done].
  - destruct (bytes_decode b); [|done]. by intros [= <-].
  - by intros [= <-].
Qed.

Lemma from_config_get_config `{E : TextEncoding} ls d a (self : Categorize)
    (cfg : config) :
  encoding_sound E →
  __init__ ls d a = Some self →
  get_config self = Some cfg →
  from_config cfg = Some self.
Proof.
  intros HE Hinit Hcfg. unfold __init__ in Hinit.
  destruct (np_dtype_of d) as [sd|]; [|done]. simpl in Hinit.
  destruct (np_dtype_of a ≫= as_int) as [sa|] eqn:Ha;
    [|by destruct (if decide _ then _ else _)].
  unfold get_config in Hcfg. unfold from_config, __init__.
  destruct (decide (kind sd = "S"%char)) as [HS|HS].
  - destruct (mapM ensure_bytes ls) as [sl|] eqn:Hsl; [|done].
    injection Hinit as <-. simpl in *. rewrite decide_True in Hcfg by done.
    destruct (mapM ensure_text sl) as [cl|] eqn:Hcl; [|done].
    injection Hcfg as <-. simpl.
    rewrite dtype_of_dtype_str, dtype_of_int_dtype_str. simpl.
    rewrite decide_True by done.
    rewrite (mapM_back ensure_bytes ensure_text ls sl cl); try done.
    intros x y z. by apply ensure_bytes_text_bytes.
  - destruct (decide (kind sd = "U"%char)) as [HU|HU].
    + destruct (mapM ensure_text ls) as [sl|] eqn:Hsl; [|done].
      injection Hinit as <-. simpl in *. rewrite decide_False in Hcfg by done.
      injection Hcfg as <-. simpl.
      rewrite dtype_of_dtype_str, dtype_of_int_dtype_str. simpl.
      rewrite decide_False, decide_True by done.
      rewrite (mapM_again ensure_text ls sl); try done.
      intros x y. apply ensure_text_again.
    + injection Hinit as <-. simpl in *. rewrite decide_False in Hcfg by done.
      injection Hcfg as <-. simpl.
      rewrite dtype_of_dtype_str, dtype_of_int_dtype_str. simpl.
      by rewrite !decide_False by done.
Qed.

(** C5: a codec that was constructed and whose configuration was
    exported is reconstructed from the labels, dtype and astype of that
    configuration as a codec with the same results of encode and of
    decode on every input. *)
Theorem config_roundtrip `{E : TextEncoding} ls d a (self : Categorize)
    (cfg : config) :
  encoding_sound E →
  __init__ ls d a = Some self →
  get_config self = Some cfg →
  ∃ self',
    from_config cfg = Some self' ∧
    (∀ buf, encode self' buf = encode self buf) ∧
    (∀ buf out h, decode self' buf out h = decode self buf out h).
Proof.
  intros HE Hinit Hcfg. exists self.
  by rewrite (from_config_get_config ls d a self cfg).
Qed.

Lemma ascii_encode_decoded b s :
  ascii_decode b = Some s → ascii_encode s = Some b.
Proof.
  revert s; induction b as [|c b IH]; intros s; simpl.
  - by intros [= <-].
  - case_decide; [|done].
    destruct (ascii_decode b) as [s'|]; simpl; [|done].
    intros [= <-]. simpl. rewrite decide_True by done.
    rewrite (IH s' eq_refl). simpl. by rewrite ascii_N_embedding.
Qed.

Lemma ascii_encoding_sound : encoding_sound ascii_encoding.
Proof. intros b s. apply ascii_encode_decoded. Qed.

Lemma config_roundtrip_witness :
  ∃ self',
    @from_config ascii_encoding
      {| cfg_id := "categorize";
         cfg_labels := [PyStr [102; 101; 109; 97; 108; 101]%N;
                        PyStr [109; 97; 108; 101]%N];
         cfg_dtype := "|S10";
         cfg_astype := "|u1" |} = Some self' ∧
    (∀ buf, encode self' buf = encode sex_codec buf) ∧
    (∀ buf out h, decode self' buf out h = decode sex_codec buf out h).
Proof.
  apply (@config_roundtrip ascii_encoding
           [PyBytes "female"; PyBytes "male"] (OfDtype (DBytes 10))
           default_astype sex_codec).
  - apply ascii_encoding_sound.
  - reflexivity.
  - reflexivity.
Defined.

(** ** Duplicate labels *)



(** ** Codes wider than the encoded type *)




(** ** Order of the labels *)




(** ** The docstring's example *)

(** C9: with the labels [female] and [male], a byte-string decoded type
    and the default one-byte unsigned encoded type, the input
    [[male; female; female; male; unexpected]] is encoded as
    [[2; 1; 1; 2; 0]], which decodes to [[male; female; female; male; b'']]. *)
Theorem docstring_example `{E : TextEncoding} :
  ∃ self,
    __init__ [PyBytes "female"; PyBytes "male"] (OfDtype (DBytes 10))
      default_astype = Some self ∧
    astype self = U1 ∧
    encode self [PyBytes "male"; PyBytes "female"; PyBytes "female";
                 PyBytes "male"; PyBytes "unexpected"]
    = [2; 1; 1; 2; 0] ∧
    decode self [2; 1; 1; 2; 0] OutNone []
    = Some (0%nat, [[PyBytes "male"; PyBytes "female"; PyBytes "female";
                     PyBytes "male"; PyBytes ""]]).
Proof. exists sex_codec. repeat split. Qed.

(** ** No labels *)

Lemma init_no_labels `{E : TextEncoding} d a (self : Categorize) :
  __init__ [] d a = Some self → labels self = [].
Proof.
  unfold __init__. destruct (np_dtype_of d) as [sd|]; [|done]. simpl.
  destruct (np_dtype_of a ≫= as_int) as [sa|];
    repeat case_decide; simpl; by intros [= <-].
Qed.

(** C10: a codec constructed with no labels encodes every input array
    as zeros, one per element, and decodes every code array, without an
    output buffer, to zero values of the decoded type, one per code. *)
Theorem no_labels `{E : TextEncoding} d a (self : Categorize)
    (x : list pyobj) (enc : list Z) (h : store) :
  __init__ [] d a = Some self →
  encode self x = replicate (length x) 0 ∧
  decode self enc OutNone h
  = Some (length h, h ++ [replicate (length enc) (zero (dtype self))]).
Proof.
  intros Hl%init_no_labels. split.
  - rewrite encode_spec, Hl. unfold code_of. simpl.
    induction x as [|v x IH]; simpl; [done | by rewrite IH].
  - rewrite decode_no_out, Hl. do 4 f_equal.
    induction enc as [|c enc IH]; simpl; [done|]. rewrite IH. f_equal.
    unfold decoded, label_of. case_decide; [|done]. by rewrite lookup_nil.
Qed.

Lemma no_labels_witness :
  let self := {| dtype := DText 4; labels := []; astype := U2 |} in
  encode self [PyStr [97%N]; PyStr []] = replicate 2 0 ∧
  decode self [3; 0; 1] OutNone []
  = Some (0%nat, [replicate 3 (PyStr [])]).
Proof.
  apply (@no_labels ascii_encoding (OfStr "<U4") (OfStr "<u2")
           {| dtype := DText 4; labels := []; astype := U2 |}
           [PyStr [97%N]; PyStr []] [3; 0; 1] []).
  reflexivity.
Defined.

(** * Further properties *)

(** ** encode *)

(** X1: encoding is chunk-wise: the encoding of two arrays laid end to
    end is the two encodings laid end to end. *)
Theorem encode_app (self : Categorize) (x y : list pyobj) :
  encode self (x ++ y) = encode self x ++ encode self y.
Proof. rewrite !encode_spec. apply map_app. Qed.

(** X2: encode returns one code for each input element. *)
Theorem encode_length (self : Categorize) (buf : list pyobj) :
  length (encode self buf) = length buf.
Proof. rewrite encode_spec. apply length_map. Qed.

Lemma code_of_range t (ls : list pyobj) (x : pyobj) :
  Z.of_nat (length ls) ≤ max_value t →
  0 ≤ code_of t ls x ≤ Z.of_nat (length ls).
Proof.
  intros Hmax. unfold code_of. destruct (last_index ls x) as [i|] eqn:Hi.
  - apply last_index_lt in Hi. rewrite cast_fits by lia. lia.
  - lia.
Qed.

(** X3: when the encoded type holds [len(labels)], every code that
    encode produces lies between [0] and [len(labels)]. *)
Theorem encode_codes_bounded (self : Categorize) (buf : list pyobj) (c : Z) :
  Z.of_nat (length (labels self)) ≤ max_value (astype self) →
  c ∈ encode self buf →
  0 ≤ c ≤ Z.of_nat (length (labels self)).
Proof.
  intros Hmax. rewrite encode_spec. change map with (@fmap list _).
  intros (x & -> & _)%list_elem_of_fmap. by apply code_of_range.
Qed.

Lemma encode_codes_bounded_witness :
  0 ≤ 2 ≤ Z.of_nat (length (labels sex_codec)).
Proof.
  apply (encode_codes_bounded sex_codec [PyBytes "male"] 2).
  - by vm_compute.
  - apply list_elem_of_singleton. reflexivity.
Defined.





(** ** decode after encode, encode after decode *)








(** ** decode without an output buffer *)





(** ** decode into an array *)






(** ** Appending labels *)






(** ** Construction *)

Lemma mapM_ensure_bytes_is_bytes `{E : TextEncoding} (l k : list pyobj) :
  mapM ensure_bytes l = Some k → Forall (λ x, is_bytes x = true) k.
Proof.
  rewrite mapM_Some. induction 1 as [|x y l k Hxy _ IH]; constructor; [|done].
  destruct x as [b|s|z]; simpl in Hxy; [| |done].
  - by injection Hxy as <-.
  - destruct (str_encode s); [|done]. by injection Hxy as <-.
Qed.

Lemma mapM_ensure_text_is_text `{E : TextEncoding} (l k : list pyobj) :
  mapM ensure_text l = Some k → Forall (λ x, is_text x = true) k.
Proof.
  rewrite mapM_Some. induction 1 as [|x y l k Hxy _ IH]; constructor; [|done].
  destruct x as [b|s|z]; simpl in Hxy; [| |done].
  - destruct (bytes_decode b); [|done]. by injection Hxy as <-.
  - by injection Hxy as <-.
Qed.

Lemma mapM_id_on {A} (f : A → option A) (l : list A) :
  Forall (λ x, f x = Some x) l → mapM f l = Some l.
Proof. intros H. apply mapM_Some_2. induction H; by constructor. Qed.

Lemma init_inv `{E : TextEncoding} ls d a (self : Categorize) :
  __init__ ls d a = Some self →
  np_dtype_of d = Some (dtype self) ∧
  (if decide (kind (dtype self) = "S"%char) then mapM ensure_bytes ls
   else if decide (kind (dtype self) = "U"%char) then mapM ensure_text ls
   else Some ls) = Some (labels self) ∧
  np_dtype_of a ≫= as_int = Some (astype self).
Proof.
  unfold __init__. destruct (np_dtype_of d) as [sd|]; [|done]. simpl.
  destruct (if decide (kind sd = "S"%char) then _ else _) as [sl|] eqn:Hl;
    [|done].
  simpl. destruct (np_dtype_of a ≫= as_int) as [sa|]; [|done]. simpl.
  intros [= <-]. simpl. auto.
Qed.

(** X14: a constructed codec has as many labels as it was given; with a
    byte-string decoded type they are all bytes, with a text decoded
    type all text, and with any other decoded type they are the given
    labels. *)
Theorem init_labels `{E : TextEncoding} ls d a (self : Categorize) :
  __init__ ls d a = Some self →
  length (labels self) = length ls ∧
  (kind (dtype self) = "S"%char → Forall (λ l, is_bytes l = true) (labels self)) ∧
  (kind (dtype self) = "U"%char → Forall (λ l, is_text l = true) (labels self)) ∧
  (kind (dtype self) ≠ "S"%char → kind (dtype self) ≠ "U"%char →
   labels self = ls).
Proof.
  intros (_ & Hl & _)%init_inv. repeat case_decide.
  - split; [symmetry; by eapply length_mapM|].
    split; [intros _; by eapply mapM_ensure_bytes_is_bytes|].
    split; [congruence | done].
  - split; [symmetry; by eapply length_mapM|].
    split; [done|].
    split; [intros _; by eapply mapM_ensure_text_is_text | done].
  - injection Hl as <-. done.
Qed.

Lemma init_labels_witness :
  length (labels sex_codec) = 2%nat ∧
  (kind (dtype sex_codec) = "S"%char →
   Forall (λ l, is_bytes l = true) (labels sex_codec)) ∧
  (kind (dtype sex_codec) = "U"%char →
   Forall (λ l, is_text l = true) (labels sex_codec)) ∧
  (kind (dtype sex_codec) ≠ "S"%char → kind (dtype sex_codec) ≠ "U"%char →
   labels sex_codec = [PyStr [102; 101; 109; 97; 108; 101]%N;
                       PyBytes "male"]).
Proof.
  apply (@init_labels ascii_encoding
           [PyStr [102; 101; 109; 97; 108; 101]%N; PyBytes "male"]
           (OfStr "S10") default_astype sex_codec).
  reflexivity.
Defined.

(** X15: constructing a codec again from the labels, the decoded type
    and the encoded type of a constructed codec gives the same codec:
    normalised labels are not changed by a second normalisation. *)
Theorem init_again `{E : TextEncoding} ls d a (self : Categorize) :
  __init__ ls d a = Some self →
  __init__ (labels self) (OfDtype (dtype self)) (OfDtype (DInt (astype self)))
  = Some self.
Proof.
  intros (_ & Hl & _)%init_inv. unfold __init__. simpl.
  assert ((if decide (kind (dtype self) = "S"%char)
           then mapM ensure_bytes (labels self)
           else if decide (kind (dtype self) = "U"%char)
                then mapM ensure_text (labels self)
                else Some (labels self)) = Some (labels self)) as ->.
  { repeat case_decide; [| |done]; apply mapM_id_on.
    - eapply Forall_impl; [by eapply mapM_ensure_bytes_is_bytes|].
      by intros [b|s|z].
    - eapply Forall_impl; [by eapply mapM_ensure_text_is_text|].
      by intros [b|s|z]. }
  simpl. by destruct self.
Qed.

Lemma init_again_witness :
  @__init__ ascii_encoding (labels sex_codec) (OfDtype (dtype sex_codec))
    (OfDtype (DInt (astype sex_codec))) = Some sex_codec.
Proof.
  apply (@init_again ascii_encoding
           [PyStr [102; 101; 109; 97; 108; 101]%N; PyBytes "male"]
           (OfStr "S10") default_astype sex_codec).
  reflexivity.
Defined.




(** ** Configuration export *)

Lemma get_config_inv `{E : TextEncoding} (self : Categorize) (cfg : config) :
  get_config self = Some cfg →
  cfg_id cfg = "categorize" ∧
  (if decide (kind (dtype self) = "S"%char)
   then mapM ensure_text (labels self)
   else Some (labels self)) = Some (cfg_labels cfg) ∧
  cfg_dtype cfg = dtype_str (dtype self) ∧
  cfg_astype cfg = int_dtype_str (astype self).
Proof.
  unfold get_config.
  destruct (if decide (kind (dtype self) = "S"%char) then _ else _)
    as [cl|] eqn:Hl; [|done].
  simpl. by intros [= <-].
Qed.

(** X17: the configuration of a constructed codec with a byte-string or
    a text decoded type lists as many labels as the codec has, all of
    them text. *)
Theorem get_config_labels_text `{E : TextEncoding} ls d a (self : Categorize)
    (cfg : config) :
  __init__ ls d a = Some self →
  get_config self = Some cfg →
  kind (dtype self) = "S"%char ∨ kind (dtype self) = "U"%char →
  length (cfg_labels cfg) = length (labels self) ∧
  Forall (λ l, is_text l = true) (cfg_labels cfg).
Proof.
  intros (_ & Hinit & _)%init_inv (_ & Hl & _)%get_config_inv Hk.
  destruct (decide (kind (dtype self) = "S"%char)) as [HS|HS].
  - split; [symmetry; by eapply length_mapM|].
    by eapply mapM_ensure_text_is_text.
  - injection Hl as <-. split; [done|].
    destruct Hk as [Hk|Hk]; [done|].
    rewrite decide_True in Hinit by done.
    by eapply mapM_ensure_text_is_text.
Qed.

Lemma get_config_labels_text_witness :
  length [PyStr [102; 101; 109; 97; 108; 101]%N; PyStr [109; 97; 108; 101]%N]
  = length (labels sex_codec) ∧
  Forall (λ l, is_text l = true)
    [PyStr [102; 101; 109; 97; 108; 101]%N; PyStr [109; 97; 108; 101]%N].
Proof.
  apply (@get_config_labels_text ascii_encoding
           [PyBytes "female"; PyBytes "male"] (OfDtype (DBytes 10))
           default_astype sex_codec
           {| cfg_id := "categorize";
              cfg_labels := [PyStr [102; 101; 109; 97; 108; 101]%N;
                             PyStr [109; 97; 108; 101]%N];
              cfg_dtype := "|S10";
              cfg_astype := "|u1" |}).
  - reflexivity.
  - reflexivity.
  - by left.
Defined.

(** X18: get_config raises exactly when the decoded type is a
    byte-string type and one of the labels cannot be coerced to text;
    with any other decoded type it returns the labels as they are. *)
Theorem get_config_raises `{E : TextEncoding} (self : Categorize) :
  (get_config self = None
   ↔ kind (dtype self) = "S"%char ∧
     ∃ l, l ∈ labels self ∧ ensure_text l = None) ∧
  (kind (dtype self) ≠ "S"%char →
   cfg_labels <$> get_config self = Some (labels self)).
Proof.
  unfold get_config. split.
  - destruct (decide (kind (dtype self) = "S"%char)) as [HS|HS].
    + destruct (mapM ensure_text (labels self)) as [cl|] eqn:Hl; simpl.
      * split; [done|]. intros (_ & l & Hin & Hnone).
        apply mapM_Some_1 in Hl.
        apply list_elem_of_lookup in Hin as [i Hi].
        destruct (Forall2_lookup_l _ _ _ _ _ Hl Hi) as (y & _ & Hy).
        congruence.
      * split; [|done]. intros _. split; [done|].
        apply mapM_None_1, Exists_exists in Hl as (l & Hin & Hnone).
        by exists l.
    + simpl. split; [done|]. by intros [? _].
  - intros HS. by rewrite decide_False.
Qed.

(** ** __repr__ *)

Lemma drop_last_snoc (s : string) (c : ascii) :
  drop_last (s +:+ String c EmptyString) = s.
Proof.
  induction s as [|a s IH]; [done|].
  change (String a s +:+ String c "") with (String a (s +:+ String c "")).
  simpl. destruct (s +:+ String c "") eqn:Hs.
  - by destruct s.
  - by rewrite IH.
Qed.

Lemma drop_last_list_repr `{PyRepr} (l : list pyobj) :
  drop_last (list_repr l) = "[" +:+ String.concat ", " (repr <$> l).
Proof.
  unfold list_repr.
  change ("[" +:+ String.concat ", " (repr <$> l) +:+ "]")
    with (("[" +:+ String.concat ", " (repr <$> l)) +:+ "]").
  apply drop_last_snoc.
Qed.

(** X19: the representation of a codec names the class, the type
    strings of the decoded and of the encoded type, and the labels: all
    of them in a list when there are at most three, and otherwise the
    first three followed by [, ...] inside the closing bracket. *)
Theorem repr_form `{PyRepr} (self : Categorize) :
  __repr__ self
  = "Categorize(dtype=" +:+ str_repr (dtype_str (dtype self))
    +:+ ", astype=" +:+ str_repr (int_dtype_str (astype self))
    +:+ ", labels="
    +:+ (if decide (3 < length (labels self))%nat
         then "[" +:+ String.concat ", " (repr <$> take 3 (labels self))
              +:+ ", ...]"
         else list_repr (labels self))
    +:+ ")".
Proof.
  unfold __repr__. case_decide as Hlen.
  - rewrite drop_last_list_repr.
    generalize (String.concat ", " (repr <$> take 3 (labels self))).
    intros s. reflexivity.
  - rewrite take_ge by lia. reflexivity.
Qed.

(** X20: the representation shows no label after the third: two codecs
    with the same types, the same first three labels and more than three
    labels each have the same representation. *)
Theorem repr_hides_labels `{PyRepr} (self other : Categorize) :
  dtype self = dtype other →
  astype self = astype other →
  take 3 (labels self) = take 3 (labels other) →
  (3 < length (labels self))%nat →
  (3 < length (labels other))%nat →
  __repr__ self = __repr__ other.
Proof.
  intros Hd Ha Hl Hn Hn'. unfold __repr__.
  by rewrite Hd, Ha, Hl, !decide_True by done.
Qed.

Lemma repr_hides_labels_witness :
  @__repr__ plain_repr narrow_codec
  = @__repr__ plain_repr
      {| dtype := DBytes 2;
         labels := [PyBytes "AA"; PyBytes "AB"; PyBytes "AC"; PyBytes "ZZ"];
         astype := U1 |}.
Proof.
  apply (@repr_hides_labels plain_repr narrow_codec).
  - reflexivity.
  - reflexivity.
  - reflexivity.
  - vm_compute. lia.
  - simpl. lia.
Defined.
